(** * TransactionOrchestrator: a shallow embedding of
      [src/transaction_orchestrator.py] and the properties of
      [execute_secure_transfer].

    The orchestrator owns a dictionary from asset ids to integer balances
    ([_pool]) and a list ([_history]).  [execute_secure_transfer] is a
    coroutine with a single suspension point ([await asyncio.sleep(0.05)]);
    the main development runs one call to completion with no other coroutine
    scheduled in between, and the last section looks at what the suspension
    point allows. *)

From stdpp Require Import base option list strings gmap.

Local Open Scope Z_scope.
Local Open Scope string_scope.

(** ** Python values *)

(** The values that flow through the function: [None], integers (unbounded,
    as Python's are), strings and dictionaries.  A dictionary built by a
    literal is kept as the list of its items in insertion order. *)
#[warnings="-register-all"]
Inductive PyVal : Type :=
| PyNone
| PyInt (z : Z)
| PyStr (s : string)
| PyDict (items : list (string * PyVal)).

(** [d[k]] on a dictionary value, [None] when [d] is not a dictionary or has
    no such key. *)
Fixpoint assoc (k : string) (items : list (string * PyVal)) : option PyVal :=
  match items with
  | [] => None
  | (k', v) :: rest => if String.eqb k k' then Some v else assoc k rest
  end.

Definition dict_get (k : string) (d : PyVal) : option PyVal :=
  match d with
  | PyDict items => assoc k items
  | _ => None
  end.

(** [metadata or {}]: [None] and the empty dictionary are both falsy. *)
Definition or_empty (metadata : option (list (string * PyVal))) : list (string * PyVal) :=
  match metadata with
  | None => []
  | Some [] => []
  | Some items => items
  end.

(** ** Exceptions, the object and the outside world *)

(** The only exception the body can raise is [KeyError], either by the
    explicit [raise] (with a message) or by a subscript on a missing key
    (with the key). *)
Inductive Exn : Type :=
| KeyError (arg : string).

(** [self]: the two attributes set by [__init__]. *)
Record Orchestrator : Type := mkOrchestrator {
  _pool : gmap string Z;
  _history : list PyVal
}.

(** What the call writes to the console and to the error log. *)
Inductive Event : Type :=
| Printed (tx_id : string)
| LoggedError (e : Exn).

Record World : Type := mkWorld {
  self : Orchestrator;
  output : list Event
}.

(** What the call reads from the outside: the value of [str(uuid.uuid4())]
    and of [datetime.now().isoformat()]. *)
Record Env : Type := mkEnv {
  uuid4 : string;
  now_isoformat : string
}.

(** [__init__(self, resource_pool)] *)
Definition init (resource_pool : gmap string Z) : Orchestrator :=
  {| _pool := resource_pool; _history := [] |}.

Definition set_pool (p : gmap string Z) (w : World) : World :=
  {| self := {| _pool := p; _history := _history (self w) |};
     output := output w |}.

Definition emit (ev : Event) (w : World) : World :=
  {| self := self w; output := (output w ++ [ev])%list |}.

(** ** A state-and-exception monad

    A computation takes the world and gives back the world it leaves and
    either a value or the exception it raised.  As in Python, what was
    mutated before a [raise] stays mutated. *)
Definition M (A : Type) : Type := World -> World * (Exn + A).

#[global] Instance M_ret : MRet M :=
  fun A (x : A) w => (w, inr x).

#[global] Instance M_bind : MBind M :=
  fun A B (f : A -> M B) (m : M A) w =>
    match m w with
    | (w', inr x) => f x w'
    | (w', inl e) => (w', inl e)
    end.

Definition raise {A : Type} (e : Exn) : M A :=
  fun w => (w, inl e).

(** [try: body  except Exception as e: handler(e)] *)
Definition try_except {A : Type} (body : M A) (handler : Exn -> M A) : M A :=
  fun w =>
    match body w with
    | (w', inr x) => (w', inr x)
    | (w', inl e) => handler e w'
    end.

(** [k in self._pool] *)
Definition pool_contains (k : string) : M bool :=
  fun w => (w, inr (bool_decide (is_Some (_pool (self w) !! k)))).

(** [self._pool[k]] *)
Definition pool_getitem (k : string) : M Z :=
  fun w =>
    match _pool (self w) !! k with
    | Some v => (w, inr v)
    | None => (w, inl (KeyError k))
    end.

(** [self._pool[k] = v] *)
Definition pool_setitem (k : string) (v : Z) : M unit :=
  fun w => (set_pool (<[k := v]> (_pool (self w))) w, inr tt).

(** [print(f">>> ... {tx_id} ...")] *)
Definition print_start (tx_id : string) : M unit :=
  fun w => (emit (Printed tx_id) w, inr tt).

(** [logging.error(f"Critical System Error: {str(e)}")] *)
Definition logging_error (e : Exn) : M unit :=
  fun w => (emit (LoggedError e) w, inr tt).

(** [await asyncio.sleep(0.05)] when nothing else runs meanwhile. *)
Definition sleep : M unit := mret tt.

(** ** The methods *)

(** [_format_response] *)
Definition _format_response (tx_id status : string) (detail : PyVal) : PyVal :=
  PyDict [("tx_hash", PyStr tx_id); ("status", PyStr status); ("payload", detail)].

(** The body of the [try] block. *)
Definition transfer_body (env : Env) (asset_id : string) (amount : Z)
    (metadata : option (list (string * PyVal))) : M PyVal :=
  let tx_id := uuid4 env in
  present ← pool_contains asset_id;
  if negb present then
    raise (KeyError ("존재하지 않는 자산 키입니다: " +:+ asset_id))
  else
    current_balance ← pool_getitem asset_id;
    let can_proceed := bool_decide (current_balance >= amount) in
    if negb can_proceed then
      mret (_format_response tx_id "REJECTED" (PyStr "자원 부족"))
    else
      sleep;;
      old ← pool_getitem asset_id;
      pool_setitem asset_id (old - amount);;
      balance_after ← pool_getitem asset_id;
      mret (_format_response tx_id "COMMITTED"
              (PyDict [("balance_after", PyInt balance_after);
                       ("processed_at", PyStr (now_isoformat env));
                       ("meta", PyDict (or_empty metadata))])).

(** [execute_secure_transfer] *)
Definition execute_secure_transfer (env : Env) (asset_id : string) (amount : Z)
    (metadata : option (list (string * PyVal))) : M PyVal :=
  let tx_id := uuid4 env in
  print_start tx_id;;
  try_except (transfer_body env asset_id amount metadata)
    (fun e =>
       logging_error e;;
       mret (PyDict [("status", PyStr "CRITICAL_FAILURE"); ("trace", PyStr tx_id)])).

(** ** The outcomes of one call *)

(** The world once the start line is printed. *)
Definition started (env : Env) (w : World) : World :=
  emit (Printed (uuid4 env)) w.

Definition unknown_message (asset_id : string) : string :=
  "존재하지 않는 자산 키입니다: " +:+ asset_id.

Definition failure_response (env : Env) : PyVal :=
  PyDict [("status", PyStr "CRITICAL_FAILURE"); ("trace", PyStr (uuid4 env))].

Definition rejected_response (env : Env) : PyVal :=
  _format_response (uuid4 env) "REJECTED" (PyStr "자원 부족").

Definition committed_response (env : Env)
    (metadata : option (list (string * PyVal))) (balance_after : Z) : PyVal :=
  _format_response (uuid4 env) "COMMITTED"
    (PyDict [("balance_after", PyInt balance_after);
             ("processed_at", PyStr (now_isoformat env));
             ("meta", PyDict (or_empty metadata))]).

(** The three ways a call can end, as a view on what it returns. *)
Variant outcome (env : Env) (asset_id : string) (amount : Z)
    (metadata : option (list (string * PyVal))) (w : World) :
    World * (Exn + PyVal) -> Prop :=
| UnknownAsset :
    _pool (self w) !! asset_id = None ->
    outcome env asset_id amount metadata w
      (emit (LoggedError (KeyError (unknown_message asset_id))) (started env w),
       inr (failure_response env))
| Rejected (balance : Z) :
    _pool (self w) !! asset_id = Some balance ->
    balance < amount ->
    outcome env asset_id amount metadata w
      (started env w, inr (rejected_response env))
| Committed (balance : Z) :
    _pool (self w) !! asset_id = Some balance ->
    amount <= balance ->
    outcome env asset_id amount metadata w
      (set_pool (<[asset_id := balance - amount]> (_pool (self w))) (started env w),
       inr (committed_response env metadata (balance - amount))).

(** ** Observing a call *)

(** The pool and the history the call leaves behind. *)
Definition pool_after {A : Type} (out : World * (Exn + A)) : gmap string Z :=
  _pool (self (fst out)).

Definition history_after {A : Type} (out : World * (Exn + A)) : list PyVal :=
  _history (self (fst out)).

(** A field of the dictionary the call returned; [None] when the call raised
    or the field is missing. *)
Definition field (k : string) (out : World * (Exn + PyVal)) : option PyVal :=
  match snd out with
  | inr r => dict_get k r
  | inl _ => None
  end.

Definition status (out : World * (Exn + PyVal)) : option PyVal :=
  field "status" out.


(** ** Calls one after the other *)

Record Request : Type := mkRequest {
  req_env : Env;
  req_asset_id : string;
  req_amount : Z;
  req_metadata : option (list (string * PyVal))
}.

Definition submit (rq : Request) : M PyVal :=
  execute_secure_transfer (req_env rq) (req_asset_id rq) (req_amount rq)
    (req_metadata rq).

(** Each call is awaited before the next one is made. *)
Fixpoint run_sequential (reqs : list Request) (w : World) : World :=
  match reqs with
  | [] => w
  | rq :: rest => run_sequential rest (fst (submit rq w))
  end.

(** ** The coroutine cut at its suspension point *)

(** The [except] clause. *)
Definition on_exception (env : Env) (e : Exn) : M PyVal :=
  logging_error e;;
  mret (PyDict [("status", PyStr "CRITICAL_FAILURE"); ("trace", PyStr (uuid4 env))]).

(** The body up to the [await]: [Some r] when it returned [r] before reaching
    it, [None] when it is suspended there. *)
Definition until_await (env : Env) (asset_id : string) (amount : Z) :
    M (option PyVal) :=
  present ← pool_contains asset_id;
  if negb present then
    raise (KeyError ("존재하지 않는 자산 키입니다: " +:+ asset_id))
  else
    current_balance ← pool_getitem asset_id;
    let can_proceed := bool_decide (current_balance >= amount) in
    if negb can_proceed then
      mret (Some (_format_response (uuid4 env) "REJECTED" (PyStr "자원 부족")))
    else
      mret None.

(** The body from the [await] on. *)
Definition from_await (env : Env) (asset_id : string) (amount : Z)
    (metadata : option (list (string * PyVal))) : M PyVal :=
  old ← pool_getitem asset_id;
  pool_setitem asset_id (old - amount);;
  balance_after ← pool_getitem asset_id;
  mret (_format_response (uuid4 env) "COMMITTED"
          (PyDict [("balance_after", PyInt balance_after);
                   ("processed_at", PyStr (now_isoformat env));
                   ("meta", PyDict (or_empty metadata))])).

Definition start (env : Env) (asset_id : string) (amount : Z) :
    M (option PyVal) :=
  print_start (uuid4 env);;
  try_except (until_await env asset_id amount)
    (fun e => r ← on_exception env e; mret (Some r)).

Definition resume (env : Env) (asset_id : string) (amount : Z)
    (metadata : option (list (string * PyVal))) : M PyVal :=
  try_except (from_await env asset_id amount metadata) (on_exception env).

(** Two calls gathered on the event loop: both run to their [await], then
    both are resumed, in the order they went to sleep. *)
Definition gather2 (rq1 rq2 : Request) : M (option PyVal * option PyVal) :=
  s1 ← start (req_env rq1) (req_asset_id rq1) (req_amount rq1);
  s2 ← start (req_env rq2) (req_asset_id rq2) (req_amount rq2);
  r1 ← match s1 with
       | Some r => mret (Some r)
       | None => r ← resume (req_env rq1) (req_asset_id rq1) (req_amount rq1)
                     (req_metadata rq1);
                 mret (Some r)
       end;
  r2 ← match s2 with
       | Some r => mret (Some r)
       | None => r ← resume (req_env rq2) (req_asset_id rq2) (req_amount rq2)
                     (req_metadata rq2);
                 mret (Some r)
       end;
  mret (r1, r2).

(** ** Reading a response *)

(** [list(d.keys())] *)
Definition dict_keys (d : PyVal) : list string :=
  match d with
  | PyDict items => map fst items
  | _ => []
  end.

Definition keys (out : World * (Exn + PyVal)) : list string :=
  match snd out with
  | inr r => dict_keys r
  | inl _ => []
  end.

(** [response["payload"]["balance_after"]] *)
Definition balance_after_of (out : World * (Exn + PyVal)) : option PyVal :=
  match field "payload" out with
  | Some payload => dict_get "balance_after" payload
  | None => None
  end.

(** What one call makes of the pool: the entry of the asset lowered by the
    amount when the asset is known and its balance covers the amount, the same
    pool otherwise. *)
Definition pool_step (asset_id : string) (amount : Z) (p : gmap string Z) :
    gmap string Z :=
  match p !! asset_id with
  | Some balance =>
      if bool_decide (amount <= balance)
      then <[asset_id := balance - amount]> p
      else p
  | None => p
  end.

(** ** The responses of a sequential run *)

(** What each call of the run returned, next to its request. *)
Fixpoint run_responses (reqs : list Request) (w : World) :
    list (Request * (Exn + PyVal)) :=
  match reqs with
  | [] => []
  | rq :: rest => (rq, snd (submit rq w)) :: run_responses rest (fst (submit rq w))
  end.

Definition is_committed (r : Exn + PyVal) : bool :=
  match r with
  | inr d =>
      match dict_get "status" d with
      | Some (PyStr st) => String.eqb st "COMMITTED"
      | _ => false
      end
  | inl _ => false
  end.

(** The sum of the amounts of the requests on [asset_id] that came back
    COMMITTED. *)
Fixpoint debited (asset_id : string) (log : list (Request * (Exn + PyVal))) : Z :=
  match log with
  | [] => 0
  | (rq, r) :: rest =>
      (if String.eqb (req_asset_id rq) asset_id && is_committed r
       then req_amount rq else 0)
      + debited asset_id rest
  end.

(** ** Dictionaries as shared objects

    [__init__] stores the dictionary it is given, not a copy of it.  Here the
    dictionaries live in a store and are named by their address; an
    orchestrator holds the address of its pool. *)
Record OrchestratorRef : Type := mkOrchestratorRef {
  pool_addr : nat;
  history_of : list PyVal
}.

Record Store : Type := mkStore {
  dicts : gmap nat (gmap string Z);
  console : list Event
}.

(** [__init__(self, resource_pool)], with [resource_pool] the address of the
    caller's dictionary. *)
Definition init_ref (resource_pool : nat) : OrchestratorRef :=
  {| pool_addr := resource_pool; history_of := [] |}.

(** The orchestrator as it stands in the store; [None] for an address that
    holds no dictionary. *)
Definition load (o : OrchestratorRef) (s : Store) : option World :=
  match dicts s !! pool_addr o with
  | Some p => Some {| self := {| _pool := p; _history := history_of o |};
                      output := console s |}
  | None => None
  end.

(** A call through the reference: what it does to [self._pool] it does to the
    dictionary at the address. *)
Definition call_ref (env : Env) (asset_id : string) (amount : Z)
    (metadata : option (list (string * PyVal)))
    (o : OrchestratorRef) (s : Store) :
    option (OrchestratorRef * Store * (Exn + PyVal)) :=
  match load o s with
  | Some w =>
      let out := execute_secure_transfer env asset_id amount metadata w in
      Some ({| pool_addr := pool_addr o; history_of := _history (self (fst out)) |},
            {| dicts := <[pool_addr o := _pool (self (fst out))]> (dicts s);
               console := output (fst out) |},
            snd out)
  | None => None
  end.

(** ** Concrete data for the scenarios *)

Definition gold (balance : Z) : World :=
  {| self := init {[ "gold" := balance ]}; output := [] |}.

Definition gold_silver : World :=
  {| self := init (<["silver" := 5]> {[ "gold" := 100 ]}); output := [] |}.

Definition env1 : Env :=
  {| uuid4 := "3f2b8c1e-7a4d-4e0b-9c55-0d1a6e2f7b90";
     now_isoformat := "2024-10-08T12:00:00.000000" |}.

Definition env2 : Env :=
  {| uuid4 := "a81d4fae-7dec-41d0-a765-00a0c91e6bf6";
     now_isoformat := "2024-10-08T12:00:01.000000" |}.

Definition two_pools : Store :=
  {| dicts := <[1%nat := {[ "gold" := 50 ]}]> {[ 0%nat := {[ "gold" := 100 ]} ]};
     console := [] |}.

(** * Properties *)

Ltac run_call Hk :=
  unfold execute_secure_transfer, transfer_body, try_except, mbind, M_bind,
    print_start, logging_error, pool_contains, pool_getitem, pool_setitem,
    sleep, raise, mret, M_ret;
  cbn;
  repeat (first [ rewrite Hk | rewrite lookup_insert_eq
                | case_bool_decide; try lia ]; cbn).

Ltac run_parts Hk :=
  unfold start, resume, until_await, from_await, on_exception;
  run_call Hk.

Section Call.

Variables (env : Env) (asset_id : string) (amount : Z)
          (metadata : option (list (string * PyVal))).

Lemma call_unknown (w : World) :
  _pool (self w) !! asset_id = None ->
  execute_secure_transfer env asset_id amount metadata w
  = (emit (LoggedError (KeyError (unknown_message asset_id))) (started env w),
     inr (failure_response env)).
Proof. intros Hk. run_call Hk. reflexivity. Qed.

Lemma call_rejected (w : World) (balance : Z) :
  _pool (self w) !! asset_id = Some balance ->
  balance < amount ->
  execute_secure_transfer env asset_id amount metadata w
  = (started env w, inr (rejected_response env)).
Proof. intros Hk Hlt. run_call Hk. reflexivity. Qed.

Lemma call_committed (w : World) (balance : Z) :
  _pool (self w) !! asset_id = Some balance ->
  amount <= balance ->
  execute_secure_transfer env asset_id amount metadata w
  = (set_pool (<[asset_id := balance - amount]> (_pool (self w))) (started env w),
     inr (committed_response env metadata (balance - amount))).
Proof. intros Hk Hle. run_call Hk. reflexivity. Qed.

Lemma callP (w : World) :
  outcome env asset_id amount metadata w
    (execute_secure_transfer env asset_id amount metadata w).
Proof.
  destruct (_pool (self w) !! asset_id) as [balance|] eqn:Hk.
  - destruct (Z_lt_le_dec balance amount) as [Hlt|Hle].
    + rewrite (call_rejected w balance Hk Hlt). by eapply Rejected.
    + rewrite (call_committed w balance Hk Hle). by eapply Committed.
  - rewrite (call_unknown w Hk). by apply UnknownAsset.
Qed.

End Call.

(** ** Debit and rejection *)

(** C1: for an asset present in the pool, the call commits and leaves the
    balance lowered by exactly the amount if and only if the current balance
    is at least the amount; otherwise it returns status REJECTED with the
    insufficient-resources payload and the balance of the asset is as it
    was. *)
Theorem C1_debit_iff_sufficient
    (env : Env) (asset_id : string) (amount : Z)
    (metadata : option (list (string * PyVal))) (w : World) (balance : Z) :
  _pool (self w) !! asset_id = Some balance ->
  ((status (execute_secure_transfer env asset_id amount metadata w)
      = Some (PyStr "COMMITTED")
    /\ pool_after (execute_secure_transfer env asset_id amount metadata w)
         !! asset_id = Some (balance - amount))
   <-> balance >= amount)
  /\ (~ balance >= amount ->
      status (execute_secure_transfer env asset_id amount metadata w)
        = Some (PyStr "REJECTED")
      /\ field "payload" (execute_secure_transfer env asset_id amount metadata w)
         = Some (PyStr "자원 부족")
      /\ pool_after (execute_secure_transfer env asset_id amount metadata w)
         !! asset_id = Some balance).
Proof.
  intros Hk.
  destruct (Z_lt_le_dec balance amount) as [Hlt|Hle].
  - rewrite (call_rejected env asset_id amount metadata w balance Hk Hlt).
    split.
    + split; [intros [Hst _]; discriminate Hst | lia].
    + intros _. repeat split. exact Hk.
  - rewrite (call_committed env asset_id amount metadata w balance Hk Hle).
    split.
    + split; [lia | intros _]. split; [reflexivity |].
      unfold pool_after; cbn. apply lookup_insert_eq.
    + lia.
Qed.

Lemma C1_debit_iff_sufficient_witness :
  _pool (self (gold 10)) !! "gold" = Some 10
  /\ status (execute_secure_transfer env1 "gold" 30 None (gold 10))
     = Some (PyStr "REJECTED")
  /\ pool_after (execute_secure_transfer env1 "gold" 30 None (gold 10)) !! "gold"
     = Some 10.
Proof.
  split; [reflexivity |].
  destruct (C1_debit_iff_sufficient env1 "gold" 30 None (gold 10) 10)
    as [_ Hrej]; [reflexivity |].
  destruct Hrej as (Hst & _ & Hbal); [lia |].
  split; [exact Hst | exact Hbal].
Defined.

(** ** Balances stay non-negative *)





(** ** Scenario A *)

(** C3: for an asset with balance 100, a transfer of 30 returns the COMMITTED
    response whose payload carries [balance_after] 70 (100 minus 30), the
    timestamp read from the clock and the metadata, and the pool afterwards
    holds 70 for the asset. *)
Theorem C3_scenario_a
    (env : Env) (asset_id : string)
    (metadata : option (list (string * PyVal))) (w : World) :
  _pool (self w) !! asset_id = Some 100 ->
  snd (execute_secure_transfer env asset_id 30 metadata w)
  = inr (PyDict [("tx_hash", PyStr (uuid4 env));
                 ("status", PyStr "COMMITTED");
                 ("payload",
                  PyDict [("balance_after", PyInt 70);
                          ("processed_at", PyStr (now_isoformat env));
                          ("meta", PyDict (or_empty metadata))])])
  /\ pool_after (execute_secure_transfer env asset_id 30 metadata w) !! asset_id
     = Some 70.
Proof.
  intros Hk.
  rewrite (call_committed env asset_id 30 metadata w 100 Hk) by lia.
  split; [reflexivity |].
  unfold pool_after; cbn. apply lookup_insert_eq.
Qed.

Lemma C3_scenario_a_witness :
  _pool (self (gold 100)) !! "gold" = Some 100
  /\ status (execute_secure_transfer env1 "gold" 30 None (gold 100))
     = Some (PyStr "COMMITTED")
  /\ pool_after (execute_secure_transfer env1 "gold" 30 None (gold 100)) !! "gold"
     = Some 70.
Proof.
  split; [reflexivity |].
  destruct (C3_scenario_a env1 "gold" None (gold 100)) as (Hr & Hp);
    [reflexivity |].
  split; [| exact Hp].
  unfold status, field. rewrite Hr. reflexivity.
Defined.

(** ** Unknown assets *)

(** C4, as the specification states it, fails: for the unknown asset "ghost"
    the returned status is not FAILED. *)
Lemma C4_counterexample :
  _pool (self (gold 100)) !! "ghost" = None
  /\ ~ (status (execute_secure_transfer env1 "ghost" 5 None (gold 100))
        = Some (PyStr "FAILED")
       /\ pool_after (execute_secure_transfer env1 "ghost" 5 None (gold 100))
          = _pool (self (gold 100))).
Proof.
  split; [reflexivity |].
  intros [Hst _]. vm_compute in Hst. discriminate Hst.
Qed.

(** C4 (amended): for an asset id not present in the pool, the call returns
    exactly the dictionary with status CRITICAL_FAILURE and the transaction id
    under "trace", with no failure reason in it; the unknown-asset message is
    only written to the error log, after the start line; and the orchestrator
    (pool and history) is unchanged. *)
Theorem C4_unknown_asset_critical_failure
    (env : Env) (asset_id : string) (amount : Z)
    (metadata : option (list (string * PyVal))) (w : World) :
  _pool (self w) !! asset_id = None ->
  snd (execute_secure_transfer env asset_id amount metadata w)
  = inr (PyDict [("status", PyStr "CRITICAL_FAILURE");
                 ("trace", PyStr (uuid4 env))])
  /\ output (fst (execute_secure_transfer env asset_id amount metadata w))
     = (output w
        ++ [Printed (uuid4 env);
            LoggedError (KeyError ("존재하지 않는 자산 키입니다: " +:+ asset_id))])%list
  /\ self (fst (execute_secure_transfer env asset_id amount metadata w)) = self w.
Proof.
  intros Hk. rewrite (call_unknown env asset_id amount metadata w Hk); cbn.
  split; [reflexivity |]. split; [| reflexivity].
  by rewrite <- app_assoc.
Qed.

Lemma C4_unknown_asset_critical_failure_witness :
  _pool (self (gold 100)) !! "ghost" = None
  /\ status (execute_secure_transfer env1 "ghost" 5 None (gold 100))
     = Some (PyStr "CRITICAL_FAILURE")
  /\ self (fst (execute_secure_transfer env1 "ghost" 5 None (gold 100)))
     = self (gold 100).
Proof.
  split; [reflexivity |].
  destruct (C4_unknown_asset_critical_failure env1 "ghost" 5 None (gold 100))
    as (Hr & _ & Hs); [reflexivity |].
  split; [| exact Hs].
  unfold status, field. rewrite Hr. reflexivity.
Defined.

(** ** Amounts that are not positive *)

(** C5, as the specification states it, fails: with balance 10 and amount -5
    the call is not FAILED and the balance does not stay 10 (it becomes
    15). *)
Lemma C5_counterexample :
  status (execute_secure_transfer env1 "gold" (-5) None (gold 10))
    = Some (PyStr "COMMITTED")
  /\ pool_after (execute_secure_transfer env1 "gold" (-5) None (gold 10)) !! "gold"
     = Some 15
  /\ ~ (status (execute_secure_transfer env1 "gold" (-5) None (gold 10))
        = Some (PyStr "FAILED")
       /\ pool_after (execute_secure_transfer env1 "gold" (-5) None (gold 10))
            !! "gold" = Some 10).
Proof.
  split; [reflexivity |]. split; [reflexivity |].
  intros [Hst _]. vm_compute in Hst. discriminate Hst.
Qed.

(** C5 (amended): the amount is not validated.  For a known asset and an
    amount less than or equal to zero the status is never FAILED: the call is
    COMMITTED when the balance is at least the amount and REJECTED otherwise;
    the balance is unchanged when the call is REJECTED and when the amount
    is 0. *)
Theorem C5_nonpositive_amount_not_validated
    (env : Env) (asset_id : string) (amount : Z)
    (metadata : option (list (string * PyVal))) (w : World) (balance : Z) :
  _pool (self w) !! asset_id = Some balance ->
  amount <= 0 ->
  status (execute_secure_transfer env asset_id amount metadata w)
    <> Some (PyStr "FAILED")
  /\ (amount <= balance ->
      status (execute_secure_transfer env asset_id amount metadata w)
        = Some (PyStr "COMMITTED"))
  /\ (balance < amount ->
      status (execute_secure_transfer env asset_id amount metadata w)
        = Some (PyStr "REJECTED")
      /\ pool_after (execute_secure_transfer env asset_id amount metadata w)
           !! asset_id = Some balance)
  /\ (amount = 0 ->
      pool_after (execute_secure_transfer env asset_id amount metadata w)
        !! asset_id = Some balance).
Proof.
  intros Hk Hamt.
  destruct (Z_lt_le_dec balance amount) as [Hlt|Hle].
  - rewrite (call_rejected env asset_id amount metadata w balance Hk Hlt).
    split; [discriminate |]. split; [lia |].
    split; [intros _; split; [reflexivity | exact Hk] |].
    intros _. exact Hk.
  - rewrite (call_committed env asset_id amount metadata w balance Hk Hle).
    split; [discriminate |]. split; [reflexivity |]. split; [lia |].
    intros ->. unfold pool_after; cbn.
    rewrite lookup_insert_eq. by rewrite Z.sub_0_r.
Qed.

Lemma C5_nonpositive_amount_not_validated_witness :
  _pool (self (gold 10)) !! "gold" = Some 10
  /\ -5 <= 0
  /\ status (execute_secure_transfer env1 "gold" (-5) None (gold 10))
     <> Some (PyStr "FAILED").
Proof.
  split; [reflexivity |]. split; [lia |].
  apply (C5_nonpositive_amount_not_validated env1 "gold" (-5) None (gold 10) 10);
    [reflexivity | lia].
Defined.

(** ** Submitting the same request again *)

(** C6, as the specification states it, fails: the same request submitted a
    second time does not return the first result, and the balance of 100 ends
    at 40, not 70. *)
Lemma C6_counterexample :
  ~ (snd (execute_secure_transfer env2 "gold" 30 None
            (fst (execute_secure_transfer env1 "gold" 30 None (gold 100))))
     = snd (execute_secure_transfer env1 "gold" 30 None (gold 100))
     /\ pool_after
          (execute_secure_transfer env2 "gold" 30 None
             (fst (execute_secure_transfer env1 "gold" 30 None (gold 100))))
          !! "gold" = Some 70).
Proof.
  intros [_ Hbal]. vm_compute in Hbal. discriminate Hbal.
Qed.

(** C6 (amended): there is no replay detection.  The second submission of a
    request is executed afresh on the pool the first one left: when the
    balance covers the amount twice, both calls are COMMITTED, each response
    carries the transaction id generated for its own call, the second reports
    the balance lowered twice, and the pool ends with the balance debited
    twice. *)
Theorem C6_second_submission_debits_again
    (env_first env_second : Env) (asset_id : string) (amount : Z)
    (metadata : option (list (string * PyVal))) (w : World) (balance : Z) :
  _pool (self w) !! asset_id = Some balance ->
  amount <= balance ->
  amount <= balance - amount ->
  snd (execute_secure_transfer env_first asset_id amount metadata w)
  = inr (committed_response env_first metadata (balance - amount))
  /\ snd (execute_secure_transfer env_second asset_id amount metadata
            (fst (execute_secure_transfer env_first asset_id amount metadata w)))
     = inr (committed_response env_second metadata (balance - amount - amount))
  /\ field "tx_hash"
       (execute_secure_transfer env_second asset_id amount metadata
          (fst (execute_secure_transfer env_first asset_id amount metadata w)))
     = Some (PyStr (uuid4 env_second))
  /\ pool_after
       (execute_secure_transfer env_second asset_id amount metadata
          (fst (execute_secure_transfer env_first asset_id amount metadata w)))
       !! asset_id = Some (balance - amount - amount).
Proof.
  intros Hk H1 H2.
  rewrite (call_committed env_first asset_id amount metadata w balance Hk H1); cbn.
  split; [reflexivity |].
  match goal with
  | |- context [execute_secure_transfer _ _ _ _ ?w1] =>
      assert (Hk1 : _pool (self w1) !! asset_id = Some (balance - amount))
        by (cbn; apply lookup_insert_eq);
      rewrite (call_committed env_second asset_id amount metadata w1 _ Hk1 H2)
  end.
  split; [reflexivity |]. split; [reflexivity |].
  unfold pool_after; cbn. apply lookup_insert_eq.
Qed.

Lemma C6_second_submission_debits_again_witness :
  _pool (self (gold 100)) !! "gold" = Some 100
  /\ 30 <= 100
  /\ 30 <= 100 - 30
  /\ pool_after
       (execute_secure_transfer env2 "gold" 30 None
          (fst (execute_secure_transfer env1 "gold" 30 None (gold 100))))
       !! "gold" = Some 40.
Proof.
  split; [reflexivity |]. split; [lia |]. split; [lia |].
  apply (C6_second_submission_debits_again env1 env2 "gold" 30 None (gold 100) 100);
    [reflexivity | lia | lia].
Defined.

(** ** The history *)

(** C7, as the specification states it, fails: a call that returns COMMITTED
    on a freshly constructed orchestrator leaves the history empty, so no
    record was appended to it. *)
Lemma C7_counterexample :
  status (execute_secure_transfer env1 "gold" 30 None (gold 100))
    = Some (PyStr "COMMITTED")
  /\ history_after (execute_secure_transfer env1 "gold" 30 None (gold 100)) = []
  /\ ~ (exists record : PyVal,
          history_after (execute_secure_transfer env1 "gold" 30 None (gold 100))
          = (_history (self (gold 100)) ++ [record])%list).
Proof.
  split; [reflexivity |]. split; [reflexivity |].
  intros [record Hrec]. vm_compute in Hrec. discriminate Hrec.
Qed.

(** C7 (amended): no call appends anything to the history: whatever the call
    returns, the history list is the same after the call as before it (empty
    for an orchestrator that only went through the constructor). *)
Theorem C7_history_never_written
    (env : Env) (asset_id : string) (amount : Z)
    (metadata : option (list (string * PyVal))) (w : World) :
  history_after (execute_secure_transfer env asset_id amount metadata w)
  = _history (self w).
Proof.
  unfold history_after.
  by destruct (callP env asset_id amount metadata w).
Qed.

(** ** Frame *)

(** C8: a call on asset id X leaves the entry of every other asset id of the
    pool as it was. *)
Theorem C8_other_assets_untouched
    (env : Env) (asset_id : string) (amount : Z)
    (metadata : option (list (string * PyVal))) (w : World) (other : string) :
  other <> asset_id ->
  pool_after (execute_secure_transfer env asset_id amount metadata w) !! other
  = _pool (self w) !! other.
Proof.
  intros Hne. unfold pool_after.
  destruct (callP env asset_id amount metadata w) as [Hk|b Hk Hlt|b Hk Hle]; cbn;
    try reflexivity.
  by apply lookup_insert_ne.
Qed.

Lemma C8_other_assets_untouched_witness :
  "silver" <> "gold"
  /\ pool_after (execute_secure_transfer env1 "gold" 30 None gold_silver) !! "silver"
     = Some 5.
Proof.
  split; [discriminate |].
  rewrite (C8_other_assets_untouched env1 "gold" 30 None gold_silver "silver");
    [reflexivity | discriminate].
Defined.

(** ** No exception escapes, and the statuses *)



(** C10: the status of the returned dictionary is always one of COMMITTED,
    REJECTED and CRITICAL_FAILURE, hence never PENDING and never FAILED. *)
Theorem C10_status_values
    (env : Env) (asset_id : string) (amount : Z)
    (metadata : option (list (string * PyVal))) (w : World) :
  (status (execute_secure_transfer env asset_id amount metadata w)
     = Some (PyStr "COMMITTED")
   \/ status (execute_secure_transfer env asset_id amount metadata w)
      = Some (PyStr "REJECTED")
   \/ status (execute_secure_transfer env asset_id amount metadata w)
      = Some (PyStr "CRITICAL_FAILURE"))
  /\ status (execute_secure_transfer env asset_id amount metadata w)
     <> Some (PyStr "PENDING")
  /\ status (execute_secure_transfer env asset_id amount metadata w)
     <> Some (PyStr "FAILED").
Proof.
  destruct (callP env asset_id amount metadata w) as [Hk|b Hk Hlt|b Hk Hle];
    (split; [| split; discriminate]).
  - right; right; reflexivity.
  - right; left; reflexivity.
  - left; reflexivity.
Qed.

(** ** The suspension point *)

(** Running the part before the [await] and then, if it got there, the part
    after it, is running the call. *)
Lemma start_then_resume (env : Env) (asset_id : string) (amount : Z)
    (metadata : option (list (string * PyVal))) (w : World) :
  (s ← start env asset_id amount;
   match s with
   | Some r => mret r
   | None => resume env asset_id amount metadata
   end) w
  = execute_secure_transfer env asset_id amount metadata w.
Proof.
  destruct (_pool (self w) !! asset_id) as [balance|] eqn:Hk.
  - destruct (Z_lt_le_dec balance amount) as [Hlt|Hle].
    + rewrite (call_rejected env asset_id amount metadata w balance Hk Hlt).
      run_parts Hk. reflexivity.
    + rewrite (call_committed env asset_id amount metadata w balance Hk Hle).
      run_parts Hk. reflexivity.
  - rewrite (call_unknown env asset_id amount metadata w Hk).
    run_parts Hk. reflexivity.
Qed.

(** Two calls for 70 started together on a balance of 100 both pass the check
    before either debits: both are COMMITTED and the balance ends at -40.  One
    after the other, the second is REJECTED and the balance ends at 30. *)
Example gather2_overdraws :
  snd (gather2 (mkRequest env1 "gold" 70 None) (mkRequest env2 "gold" 70 None)
         (gold 100))
  = inr (Some (committed_response env1 None 30),
         Some (committed_response env2 None (-40)))
  /\ pool_after
       (gather2 (mkRequest env1 "gold" 70 None) (mkRequest env2 "gold" 70 None)
          (gold 100)) !! "gold" = Some (-40).
Proof. split; reflexivity. Qed.

Example sequential_rejects_second :
  snd (submit (mkRequest env2 "gold" 70 None)
         (fst (submit (mkRequest env1 "gold" 70 None) (gold 100))))
  = inr (rejected_response env2)
  /\ _pool (self (run_sequential
                    [mkRequest env1 "gold" 70 None; mkRequest env2 "gold" 70 None]
                    (gold 100))) !! "gold" = Some 30.
Proof. split; reflexivity. Qed.

(** * Further properties of the call *)

(** ** What the response looks like *)

(** X1: a response has one of two shapes.  With status CRITICAL_FAILURE its
    keys are exactly status and trace, and the transaction id is under trace;
    with any other status its keys are exactly tx_hash, status and payload, and
    the transaction id is under tx_hash. *)
Theorem response_shape
    (env : Env) (asset_id : string) (amount : Z)
    (metadata : option (list (string * PyVal))) (w : World) :
  (status (execute_secure_transfer env asset_id amount metadata w)
     = Some (PyStr "CRITICAL_FAILURE")
   /\ keys (execute_secure_transfer env asset_id amount metadata w)
      = ["status"; "trace"]
   /\ field "trace" (execute_secure_transfer env asset_id amount metadata w)
      = Some (PyStr (uuid4 env)))
  \/ (status (execute_secure_transfer env asset_id amount metadata w)
       <> Some (PyStr "CRITICAL_FAILURE")
     /\ keys (execute_secure_transfer env asset_id amount metadata w)
        = ["tx_hash"; "status"; "payload"]
     /\ field "tx_hash" (execute_secure_transfer env asset_id amount metadata w)
        = Some (PyStr (uuid4 env))).
Proof.
  destruct (callP env asset_id amount metadata w) as [Hk|b Hk Hlt|b Hk Hle].
  - left. repeat split.
  - right. split; [discriminate | split; reflexivity].
  - right. split; [discriminate | split; reflexivity].
Qed.

(** X2: the status is CRITICAL_FAILURE exactly when the asset id is not a key
    of the pool. *)
Theorem critical_failure_iff_unknown
    (env : Env) (asset_id : string) (amount : Z)
    (metadata : option (list (string * PyVal))) (w : World) :
  status (execute_secure_transfer env asset_id amount metadata w)
    = Some (PyStr "CRITICAL_FAILURE")
  <-> _pool (self w) !! asset_id = None.
Proof.
  destruct (callP env asset_id amount metadata w) as [Hk|b Hk Hlt|b Hk Hle].
  - split; [intros _; exact Hk | reflexivity].
  - split; [discriminate | congruence].
  - split; [discriminate | congruence].
Qed.

(** X3: a call whose status is not COMMITTED leaves the orchestrator, pool
    and history, exactly as it was. *)
Theorem not_committed_no_change
    (env : Env) (asset_id : string) (amount : Z)
    (metadata : option (list (string * PyVal))) (w : World) :
  status (execute_secure_transfer env asset_id amount metadata w)
    <> Some (PyStr "COMMITTED") ->
  self (fst (execute_secure_transfer env asset_id amount metadata w)) = self w.
Proof.
  destruct (callP env asset_id amount metadata w) as [Hk|b Hk Hlt|b Hk Hle];
    intros Hst.
  - reflexivity.
  - reflexivity.
  - exfalso. apply Hst. reflexivity.
Qed.

Lemma not_committed_no_change_witness :
  status (execute_secure_transfer env1 "gold" 30 None (gold 10))
    <> Some (PyStr "COMMITTED")
  /\ self (fst (execute_secure_transfer env1 "gold" 30 None (gold 10)))
     = self (gold 10).
Proof.
  assert (H : status (execute_secure_transfer env1 "gold" 30 None (gold 10))
              <> Some (PyStr "COMMITTED")) by (vm_compute; discriminate).
  split; [exact H |].
  exact (not_committed_no_change env1 "gold" 30 None (gold 10) H).
Defined.

(** X4: in a COMMITTED response, balance_after is the balance the pool holds
    for the asset once the call is over. *)
Theorem balance_after_is_pool_balance
    (env : Env) (asset_id : string) (amount : Z)
    (metadata : option (list (string * PyVal))) (w : World) :
  status (execute_secure_transfer env asset_id amount metadata w)
    = Some (PyStr "COMMITTED") ->
  exists v : Z,
    pool_after (execute_secure_transfer env asset_id amount metadata w)
      !! asset_id = Some v
    /\ balance_after_of (execute_secure_transfer env asset_id amount metadata w)
       = Some (PyInt v).
Proof.
  destruct (callP env asset_id amount metadata w) as [Hk|b Hk Hlt|b Hk Hle];
    intros Hst; try discriminate Hst.
  exists (b - amount). split; [| reflexivity].
  unfold pool_after; cbn. apply lookup_insert_eq.
Qed.

Lemma balance_after_is_pool_balance_witness :
  status (execute_secure_transfer env1 "gold" 30 None (gold 100))
    = Some (PyStr "COMMITTED")
  /\ exists v : Z,
      pool_after (execute_secure_transfer env1 "gold" 30 None (gold 100))
        !! "gold" = Some v
      /\ balance_after_of (execute_secure_transfer env1 "gold" 30 None (gold 100))
         = Some (PyInt v).
Proof.
  split; [reflexivity |].
  apply (balance_after_is_pool_balance env1 "gold" 30 None (gold 100)).
  reflexivity.
Defined.

(** X5: every call appends the start line to the output, followed by one
    error-log entry, holding the KeyError with the unknown-asset message, when
    the asset id is unknown and by nothing otherwise; what was in the output
    before stays in front. *)
Theorem output_of_call
    (env : Env) (asset_id : string) (amount : Z)
    (metadata : option (list (string * PyVal))) (w : World) :
  output (fst (execute_secure_transfer env asset_id amount metadata w))
  = (output w
     ++ Printed (uuid4 env)
        :: match _pool (self w) !! asset_id with
           | Some _ => []
           | None =>
               [LoggedError
                  (KeyError ("존재하지 않는 자산 키입니다: " +:+ asset_id))]
           end)%list.
Proof.
  destruct (callP env asset_id amount metadata w) as [Hk|b Hk Hlt|b Hk Hle];
    rewrite Hk; cbn.
  - by rewrite <- app_assoc.
  - reflexivity.
  - reflexivity.
Qed.

(** ** The keys of the pool *)

Lemma call_dom (env : Env) (asset_id : string) (amount : Z)
    (metadata : option (list (string * PyVal))) (w : World) :
  dom (pool_after (execute_secure_transfer env asset_id amount metadata w))
  =@{gset string} dom (_pool (self w)).
Proof.
  unfold pool_after.
  destruct (callP env asset_id amount metadata w) as [Hk|b Hk Hlt|b Hk Hle]; cbn;
    try reflexivity.
  apply dom_insert_lookup_L. by exists b.
Qed.

(** X6: calls never add an asset id to the pool and never remove one: after
    one call, and after any run of calls made one after the other, the pool
    has the keys it had. *)
Theorem pool_keys_preserved (w : World) :
  (forall env asset_id amount metadata,
      dom (pool_after (execute_secure_transfer env asset_id amount metadata w))
      =@{gset string} dom (_pool (self w)))
  /\ (forall reqs : list Request,
        dom (_pool (self (run_sequential reqs w)))
        =@{gset string} dom (_pool (self w))).
Proof.
  split; [intros; apply call_dom |].
  intros reqs. revert w.
  induction reqs as [|rq rest IH]; intros w; cbn; [reflexivity |].
  rewrite IH. apply call_dom.
Qed.

(** ** What a call depends on *)

Lemma call_pool (env : Env) (asset_id : string) (amount : Z)
    (metadata : option (list (string * PyVal))) (w : World) :
  pool_after (execute_secure_transfer env asset_id amount metadata w)
  = pool_step asset_id amount (_pool (self w)).
Proof.
  unfold pool_after, pool_step.
  destruct (callP env asset_id amount metadata w) as [Hk|b Hk Hlt|b Hk Hle];
    rewrite Hk; cbn; [reflexivity | |].
  - by rewrite bool_decide_eq_false_2 by lia.
  - by rewrite bool_decide_eq_true_2 by lia.
Qed.

Lemma call_frame (env : Env) (asset_id : string) (amount : Z)
    (metadata : option (list (string * PyVal))) (w : World) (other : string) :
  other <> asset_id ->
  pool_after (execute_secure_transfer env asset_id amount metadata w) !! other
  = _pool (self w) !! other.
Proof.
  intros Hne. unfold pool_after.
  destruct (callP env asset_id amount metadata w) as [Hk|b Hk Hlt|b Hk Hle]; cbn;
    try reflexivity.
  by apply lookup_insert_ne.
Qed.

Lemma call_result_local (env : Env) (asset_id : string) (amount : Z)
    (metadata : option (list (string * PyVal))) (w1 w2 : World) :
  _pool (self w1) !! asset_id = _pool (self w2) !! asset_id ->
  snd (execute_secure_transfer env asset_id amount metadata w1)
  = snd (execute_secure_transfer env asset_id amount metadata w2).
Proof.
  intros Heq.
  destruct (_pool (self w1) !! asset_id) as [b|] eqn:Hk1; symmetry in Heq.
  - destruct (Z_lt_le_dec b amount) as [Hlt|Hle].
    + by rewrite (call_rejected env asset_id amount metadata w1 b Hk1 Hlt),
        (call_rejected env asset_id amount metadata w2 b Heq Hlt).
    + by rewrite (call_committed env asset_id amount metadata w1 b Hk1 Hle),
        (call_committed env asset_id amount metadata w2 b Heq Hle).
  - by rewrite (call_unknown env asset_id amount metadata w1 Hk1),
      (call_unknown env asset_id amount metadata w2 Heq).
Qed.

(** X7: the response of a call depends on the orchestrator only through the
    pool entry of the requested asset: two orchestrators that agree on that
    entry, whatever their other balances, history and output, get the same
    response. *)
Theorem response_depends_on_own_entry
    (env : Env) (asset_id : string) (amount : Z)
    (metadata : option (list (string * PyVal))) (w1 w2 : World) :
  _pool (self w1) !! asset_id = _pool (self w2) !! asset_id ->
  snd (execute_secure_transfer env asset_id amount metadata w1)
  = snd (execute_secure_transfer env asset_id amount metadata w2).
Proof. apply call_result_local. Qed.

Lemma response_depends_on_own_entry_witness :
  _pool (self (gold 100)) !! "gold" = _pool (self gold_silver) !! "gold"
  /\ snd (execute_secure_transfer env1 "gold" 30 None (gold 100))
     = snd (execute_secure_transfer env1 "gold" 30 None gold_silver).
Proof.
  split; [reflexivity |].
  apply (response_depends_on_own_entry env1 "gold" 30 None (gold 100) gold_silver).
  reflexivity.
Defined.

(** X8: the metadata plays no part in the decision: two calls that differ
    only in their metadata leave the same world and return the same status;
    and metadata [None] and the empty dictionary give the same response. *)
Theorem metadata_is_inert
    (env : Env) (asset_id : string) (amount : Z)
    (metadata metadata' : option (list (string * PyVal))) (w : World) :
  fst (execute_secure_transfer env asset_id amount metadata w)
  = fst (execute_secure_transfer env asset_id amount metadata' w)
  /\ status (execute_secure_transfer env asset_id amount metadata w)
     = status (execute_secure_transfer env asset_id amount metadata' w)
  /\ execute_secure_transfer env asset_id amount None w
     = execute_secure_transfer env asset_id amount (Some []) w.
Proof.
  destruct (_pool (self w) !! asset_id) as [b|] eqn:Hk.
  - destruct (Z_lt_le_dec b amount) as [Hlt|Hle].
    + by rewrite !(call_rejected env asset_id amount _ w b Hk Hlt).
    + by rewrite !(call_committed env asset_id amount _ w b Hk Hle).
  - by rewrite !(call_unknown env asset_id amount _ w Hk).
Qed.

(** ** How calls compose *)

Lemma pool_step_commute (a1 a2 : string) (m1 m2 : Z) (p : gmap string Z) :
  a1 <> a2 ->
  pool_step a2 m2 (pool_step a1 m1 p) = pool_step a1 m1 (pool_step a2 m2 p).
Proof.
  intros Hne. unfold pool_step.
  destruct (p !! a1) as [b1|] eqn:H1; destruct (p !! a2) as [b2|] eqn:H2;
    repeat case_bool_decide;
    rewrite ?lookup_insert_ne, ?H1, ?H2 by congruence;
    repeat case_bool_decide; try lia; try reflexivity.
  by apply insert_insert_ne.
Qed.

(** X9: calls on two different asset ids commute: made one after the other
    in either order, each returns the response it would return alone and the
    pool ends the same. *)
Theorem calls_on_different_assets_commute
    (env_a env_b : Env) (asset_a asset_b : string) (amount_a amount_b : Z)
    (metadata_a metadata_b : option (list (string * PyVal))) (w : World) :
  asset_a <> asset_b ->
  snd (execute_secure_transfer env_b asset_b amount_b metadata_b
         (fst (execute_secure_transfer env_a asset_a amount_a metadata_a w)))
  = snd (execute_secure_transfer env_b asset_b amount_b metadata_b w)
  /\ snd (execute_secure_transfer env_a asset_a amount_a metadata_a
            (fst (execute_secure_transfer env_b asset_b amount_b metadata_b w)))
     = snd (execute_secure_transfer env_a asset_a amount_a metadata_a w)
  /\ pool_after
       (execute_secure_transfer env_b asset_b amount_b metadata_b
          (fst (execute_secure_transfer env_a asset_a amount_a metadata_a w)))
     = pool_after
         (execute_secure_transfer env_a asset_a amount_a metadata_a
            (fst (execute_secure_transfer env_b asset_b amount_b metadata_b w))).
Proof.
  intros Hne. split; [| split].
  - apply call_result_local.
    apply (call_frame env_a asset_a amount_a metadata_a w asset_b). congruence.
  - apply call_result_local.
    apply (call_frame env_b asset_b amount_b metadata_b w asset_a). congruence.
  - rewrite !call_pool.
    change (_pool (self (fst ?o))) with (pool_after o).
    rewrite !call_pool. by apply pool_step_commute.
Qed.

Lemma calls_on_different_assets_commute_witness :
  "gold" <> "silver"
  /\ pool_after
       (execute_secure_transfer env2 "silver" 2 None
          (fst (execute_secure_transfer env1 "gold" 30 None gold_silver)))
     = pool_after
         (execute_secure_transfer env1 "gold" 30 None
            (fst (execute_secure_transfer env2 "silver" 2 None gold_silver))).
Proof.
  split; [discriminate |].
  apply (calls_on_different_assets_commute env1 env2 "gold" "silver" 30 2
           None None gold_silver).
  discriminate.
Defined.

(** X10: two calls on the same asset that both commit leave the pool a
    single call for the sum of the two amounts leaves. *)
Theorem two_commits_debit_the_sum
    (env_first env_second env_sum : Env) (asset_id : string) (m n : Z)
    (metadata_first metadata_second metadata_sum : option (list (string * PyVal)))
    (w : World) (balance : Z) :
  _pool (self w) !! asset_id = Some balance ->
  m <= balance ->
  n <= balance - m ->
  pool_after
    (execute_secure_transfer env_second asset_id n metadata_second
       (fst (execute_secure_transfer env_first asset_id m metadata_first w)))
  = pool_after (execute_secure_transfer env_sum asset_id (m + n) metadata_sum w).
Proof.
  intros Hk Hm Hn.
  rewrite (call_committed env_first asset_id m metadata_first w balance Hk Hm); cbn.
  match goal with
  | |- context [execute_secure_transfer _ _ _ _ ?w1] =>
      assert (Hk1 : _pool (self w1) !! asset_id = Some (balance - m))
        by (cbn; apply lookup_insert_eq);
      rewrite (call_committed env_second asset_id n metadata_second w1 _ Hk1 Hn)
  end.
  rewrite (call_committed env_sum asset_id (m + n) metadata_sum w balance Hk)
    by lia.
  unfold pool_after; cbn. rewrite insert_insert_eq.
  f_equal. lia.
Qed.

Lemma two_commits_debit_the_sum_witness :
  _pool (self (gold 100)) !! "gold" = Some 100
  /\ 30 <= 100
  /\ 20 <= 100 - 30
  /\ pool_after
       (execute_secure_transfer env2 "gold" 20 None
          (fst (execute_secure_transfer env1 "gold" 30 None (gold 100))))
     = pool_after (execute_secure_transfer env1 "gold" (30 + 20) None (gold 100)).
Proof.
  split; [reflexivity |]. split; [lia |]. split; [lia |].
  apply (two_commits_debit_the_sum env1 env2 env1 "gold" 30 20 None None None
           (gold 100) 100); [reflexivity | lia | lia].
Defined.

(** ** Negative amounts *)

(** X11: a negative amount on a non-negative balance always commits, and the
    balance goes up by the absolute value of the amount. *)
Theorem negative_amount_credits
    (env : Env) (asset_id : string) (amount : Z)
    (metadata : option (list (string * PyVal))) (w : World) (balance : Z) :
  _pool (self w) !! asset_id = Some balance ->
  amount < 0 ->
  0 <= balance ->
  status (execute_secure_transfer env asset_id amount metadata w)
    = Some (PyStr "COMMITTED")
  /\ pool_after (execute_secure_transfer env asset_id amount metadata w)
       !! asset_id = Some (balance + Z.abs amount)
  /\ balance < balance + Z.abs amount.
Proof.
  intros Hk Hneg Hb.
  rewrite (call_committed env asset_id amount metadata w balance Hk) by lia.
  split; [reflexivity |]. split; [| lia].
  unfold pool_after; cbn. rewrite lookup_insert_eq. f_equal. lia.
Qed.

Lemma negative_amount_credits_witness :
  _pool (self (gold 10)) !! "gold" = Some 10
  /\ -5 < 0
  /\ 0 <= 10
  /\ pool_after (execute_secure_transfer env1 "gold" (-5) None (gold 10)) !! "gold"
     = Some 15.
Proof.
  split; [reflexivity |]. split; [lia |]. split; [lia |].
  apply (negative_amount_credits env1 "gold" (-5) None (gold 10) 10);
    [reflexivity | lia | lia].
Defined.

(** ** Accounting over a run *)

Lemma submit_account (rq : Request) (w : World) (asset_id : string) (balance : Z) :
  _pool (self w) !! asset_id = Some balance ->
  _pool (self (fst (submit rq w))) !! asset_id
  = Some (balance
          - (if String.eqb (req_asset_id rq) asset_id && is_committed (snd (submit rq w))
             then req_amount rq else 0)).
Proof.
  intros Hk. unfold submit.
  destruct (String.eqb_spec (req_asset_id rq) asset_id) as [Heq|Hne]; cbn [andb].
  - rewrite Heq.
    destruct (Z_lt_le_dec balance (req_amount rq)) as [Hlt|Hle].
    + rewrite (call_rejected _ asset_id _ _ w balance Hk Hlt); cbn.
      rewrite Hk. f_equal. lia.
    + rewrite (call_committed _ asset_id _ _ w balance Hk Hle); cbn.
      apply lookup_insert_eq.
  - change (_pool (self (fst ?o))) with (pool_after o).
    rewrite call_frame by congruence. rewrite Hk. f_equal. lia.
Qed.

Lemma run_account (reqs : list Request) :
  forall (w : World) (asset_id : string) (balance : Z),
    _pool (self w) !! asset_id = Some balance ->
    _pool (self (run_sequential reqs w)) !! asset_id
    = Some (balance - debited asset_id (run_responses reqs w)).
Proof.
  induction reqs as [|rq rest IH]; intros w asset_id balance Hk;
    cbn [run_sequential run_responses debited].
  - rewrite Hk. f_equal. lia.
  - rewrite (IH _ asset_id _ (submit_account rq w asset_id balance Hk)).
    f_equal. lia.
Qed.

Lemma debited_nonneg (asset_id : string) (reqs : list Request) :
  forall w : World,
    Forall (fun rq => 0 <= req_amount rq) reqs ->
    0 <= debited asset_id (run_responses reqs w).
Proof.
  induction reqs as [|rq rest IH]; intros w Hall;
    cbn [run_responses debited]; [lia |].
  inversion Hall as [|? ? Hrq Hrest]; subst.
  specialize (IH (fst (submit rq w)) Hrest).
  destruct (String.eqb (req_asset_id rq) asset_id && is_committed (snd (submit rq w)));
    lia.
Qed.

(** X12: after any run of calls made one after the other, the balance of an
    asset is its balance before the run minus the sum of the amounts of the
    calls on that asset that returned COMMITTED. *)
Theorem run_balance_is_initial_minus_committed
    (reqs : list Request) (w : World) (asset_id : string) (balance : Z) :
  _pool (self w) !! asset_id = Some balance ->
  _pool (self (run_sequential reqs w)) !! asset_id
  = Some (balance - debited asset_id (run_responses reqs w)).
Proof. apply run_account. Qed.

Lemma run_balance_is_initial_minus_committed_witness :
  _pool (self (gold 100)) !! "gold" = Some 100
  /\ debited "gold"
       (run_responses
          [mkRequest env1 "gold" 70 None; mkRequest env2 "gold" 70 None;
           mkRequest env1 "gold" 10 None] (gold 100)) = 80
  /\ _pool (self (run_sequential
                    [mkRequest env1 "gold" 70 None; mkRequest env2 "gold" 70 None;
                     mkRequest env1 "gold" 10 None] (gold 100))) !! "gold"
     = Some 20.
Proof.
  split; [reflexivity |]. split; [reflexivity |].
  rewrite (run_balance_is_initial_minus_committed
             [mkRequest env1 "gold" 70 None; mkRequest env2 "gold" 70 None;
              mkRequest env1 "gold" 10 None] (gold 100) "gold" 100);
    reflexivity.
Defined.

(** X13: when no request of a run has a negative amount, no balance is
    higher after the run than before it. *)
Theorem run_never_raises_a_balance
    (reqs : list Request) (w : World) (asset_id : string) (balance : Z) :
  Forall (fun rq => 0 <= req_amount rq) reqs ->
  _pool (self w) !! asset_id = Some balance ->
  exists balance' : Z,
    _pool (self (run_sequential reqs w)) !! asset_id = Some balance'
    /\ balance' <= balance.
Proof.
  intros Hall Hk. eexists. split; [by apply run_account |].
  pose proof (debited_nonneg asset_id reqs w Hall). lia.
Qed.

Lemma run_never_raises_a_balance_witness :
  Forall (fun rq => 0 <= req_amount rq)
    [mkRequest env1 "gold" 70 None; mkRequest env2 "gold" 0 None]
  /\ _pool (self (gold 100)) !! "gold" = Some 100
  /\ exists balance' : Z,
      _pool (self (run_sequential
                     [mkRequest env1 "gold" 70 None; mkRequest env2 "gold" 0 None]
                     (gold 100))) !! "gold" = Some balance'
      /\ balance' <= 100.
Proof.
  assert (Hall : Forall (fun rq => 0 <= req_amount rq)
                   [mkRequest env1 "gold" 70 None; mkRequest env2 "gold" 0 None]).
  { repeat constructor; cbn; lia. }
  split; [exact Hall |]. split; [reflexivity |].
  apply (run_never_raises_a_balance _ (gold 100) "gold" 100 Hall). reflexivity.
Defined.

(** ** After the suspension point *)

Lemma resume_known (env : Env) (asset_id : string) (amount : Z)
    (metadata : option (list (string * PyVal))) (w : World) (balance : Z) :
  _pool (self w) !! asset_id = Some balance ->
  resume env asset_id amount metadata w
  = (set_pool (<[asset_id := balance - amount]> (_pool (self w))) w,
     inr (committed_response env metadata (balance - amount))).
Proof. intros Hk. run_parts Hk. reflexivity. Qed.

Lemma start_suspends (env : Env) (asset_id : string) (amount : Z)
    (w : World) (balance : Z) :
  _pool (self w) !! asset_id = Some balance ->
  amount <= balance ->
  start env asset_id amount w = (started env w, inr None).
Proof. intros Hk Hle. run_parts Hk. reflexivity. Qed.

(** X14: the balance is compared with the amount only before the suspension
    point.  The part of the call that runs after it debits whatever balance
    it then finds, also one lower than the amount, and returns COMMITTED with
    that, possibly negative, result as balance_after. *)
Theorem resume_does_not_recheck
    (env : Env) (asset_id : string) (amount : Z)
    (metadata : option (list (string * PyVal))) (w : World) (balance : Z) :
  _pool (self w) !! asset_id = Some balance ->
  snd (resume env asset_id amount metadata w)
  = inr (_format_response (uuid4 env) "COMMITTED"
           (PyDict [("balance_after", PyInt (balance - amount));
                    ("processed_at", PyStr (now_isoformat env));
                    ("meta", PyDict (or_empty metadata))]))
  /\ pool_after (resume env asset_id amount metadata w) !! asset_id
     = Some (balance - amount).
Proof.
  intros Hk. rewrite (resume_known env asset_id amount metadata w balance Hk).
  split; [reflexivity |].
  unfold pool_after; cbn. apply lookup_insert_eq.
Qed.

Lemma resume_does_not_recheck_witness :
  _pool (self (gold 30)) !! "gold" = Some 30
  /\ pool_after (resume env1 "gold" 70 None (gold 30)) !! "gold" = Some (-40).
Proof.
  split; [reflexivity |].
  apply (resume_does_not_recheck env1 "gold" 70 None (gold 30) 30). reflexivity.
Defined.

(** X15: if the asset id is no longer a key of the pool when the call is
    resumed, the subscript raises KeyError with the asset id, which the except
    clause logs; the call returns the CRITICAL_FAILURE response and the pool is
    not touched. *)
Theorem resume_on_removed_asset
    (env : Env) (asset_id : string) (amount : Z)
    (metadata : option (list (string * PyVal))) (w : World) :
  _pool (self w) !! asset_id = None ->
  resume env asset_id amount metadata w
  = (emit (LoggedError (KeyError asset_id)) w,
     inr (PyDict [("status", PyStr "CRITICAL_FAILURE");
                  ("trace", PyStr (uuid4 env))])).
Proof. intros Hk. run_parts Hk. reflexivity. Qed.

Lemma resume_on_removed_asset_witness :
  _pool (self (gold 30)) !! "ghost" = None
  /\ status (resume env1 "ghost" 5 None (gold 30))
     = Some (PyStr "CRITICAL_FAILURE")
  /\ pool_after (resume env1 "ghost" 5 None (gold 30)) = _pool (self (gold 30)).
Proof.
  split; [reflexivity |].
  rewrite (resume_on_removed_asset env1 "ghost" 5 None (gold 30)); [| reflexivity].
  split; reflexivity.
Defined.

(** X16: when two calls on the same asset both reach the suspension point
    before either is resumed, and the balance covers each amount taken alone,
    both return COMMITTED and both amounts are debited; the balance ends below
    zero whenever it does not cover the two amounts together. *)
Theorem gathered_calls_both_commit
    (env_first env_second : Env) (asset_id : string) (m n : Z)
    (metadata_first metadata_second : option (list (string * PyVal)))
    (w : World) (balance : Z) :
  _pool (self w) !! asset_id = Some balance ->
  m <= balance ->
  n <= balance ->
  snd (gather2 (mkRequest env_first asset_id m metadata_first)
               (mkRequest env_second asset_id n metadata_second) w)
  = inr (Some (committed_response env_first metadata_first (balance - m)),
         Some (committed_response env_second metadata_second (balance - m - n)))
  /\ pool_after
       (gather2 (mkRequest env_first asset_id m metadata_first)
                (mkRequest env_second asset_id n metadata_second) w)
       !! asset_id = Some (balance - m - n)
  /\ (balance < m + n -> balance - m - n < 0).
Proof.
  intros Hk Hm Hn.
  assert (Hgo :
    gather2 (mkRequest env_first asset_id m metadata_first)
            (mkRequest env_second asset_id n metadata_second) w
    = (set_pool (<[asset_id := balance - m - n]>
                   (<[asset_id := balance - m]> (_pool (self w))))
         (started env_second (started env_first w)),
       inr (Some (committed_response env_first metadata_first (balance - m)),
            Some (committed_response env_second metadata_second (balance - m - n))))).
  { unfold gather2; cbn [req_env req_asset_id req_amount req_metadata].
    unfold mbind at 1, M_bind at 1.
    rewrite (start_suspends env_first asset_id m w balance Hk Hm).
    unfold mbind at 1, M_bind at 1.
    rewrite (start_suspends env_second asset_id n (started env_first w) balance
               Hk Hn).
    unfold mbind, M_bind, mret, M_ret.
    rewrite (resume_known env_first asset_id m metadata_first
               (started env_second (started env_first w)) balance Hk).
    match goal with
    | |- context [resume env_second asset_id n metadata_second ?w1] =>
        assert (Hk1 : _pool (self w1) !! asset_id = Some (balance - m))
          by (cbn; apply lookup_insert_eq);
        rewrite (resume_known env_second asset_id n metadata_second w1 _ Hk1)
    end.
    reflexivity. }
  rewrite Hgo. split; [reflexivity |]. split; [| lia].
  unfold pool_after; cbn. apply lookup_insert_eq.
Qed.

Lemma gathered_calls_both_commit_witness :
  _pool (self (gold 100)) !! "gold" = Some 100
  /\ 70 <= 100
  /\ 70 <= 100
  /\ pool_after
       (gather2 (mkRequest env1 "gold" 70 None) (mkRequest env2 "gold" 70 None)
          (gold 100)) !! "gold" = Some (-40).
Proof.
  split; [reflexivity |]. split; [lia |]. split; [lia |].
  apply (gathered_calls_both_commit env1 env2 "gold" 70 70 None None (gold 100) 100);
    [reflexivity | lia | lia].
Defined.

(** X17: nothing is written before the suspension point: the part of the call
    that runs up to it leaves the orchestrator, pool and history, as it was,
    whatever the asset id and the amount. *)
Theorem start_writes_nothing
    (env : Env) (asset_id : string) (amount : Z) (w : World) :
  self (fst (start env asset_id amount w)) = self w.
Proof.
  destruct (_pool (self w) !! asset_id) as [balance|] eqn:Hk.
  - destruct (Z_lt_le_dec balance amount) as [Hlt|Hle].
    + run_parts Hk. reflexivity.
    + rewrite (start_suspends env asset_id amount w balance Hk Hle). reflexivity.
  - run_parts Hk. reflexivity.
Qed.

(** ** The pool is the caller's dictionary *)

(** X18: the constructor keeps the dictionary it is given, not a copy.  A
    committed call through an orchestrator constructed on the dictionary at
    some address writes the lowered balance into that very dictionary, so the
    caller and any orchestrator constructed on the same address afterwards
    find it there; dictionaries at other addresses are not touched. *)
Theorem constructor_shares_the_pool
    (env : Env) (asset_id : string) (amount : Z)
    (metadata : option (list (string * PyVal)))
    (s : Store) (address : nat) (p : gmap string Z) (balance : Z) :
  dicts s !! address = Some p ->
  p !! asset_id = Some balance ->
  amount <= balance ->
  exists (o' : OrchestratorRef) (s' : Store),
    call_ref env asset_id amount metadata (init_ref address) s
    = Some (o', s', inr (committed_response env metadata (balance - amount)))
    /\ dicts s' !! address = Some (<[asset_id := balance - amount]> p)
    /\ load (init_ref address) s'
       = Some {| self := init (<[asset_id := balance - amount]> p);
                 output := console s' |}
    /\ (forall other : nat, other <> address ->
          dicts s' !! other = dicts s !! other).
Proof.
  intros Hd Hk Hle.
  unfold call_ref, load; cbn. rewrite Hd.
  rewrite (call_committed env asset_id amount metadata
             {| self := {| _pool := p; _history := [] |}; output := console s |}
             balance Hk Hle); cbn.
  eexists _, _. split; [reflexivity |]. cbn.
  rewrite lookup_insert_eq. split; [reflexivity |]. split; [reflexivity |].
  intros other Hne. by apply lookup_insert_ne.
Qed.

Lemma constructor_shares_the_pool_witness :
  dicts two_pools !! 0%nat = Some {[ "gold" := 100 ]}
  /\ ({[ "gold" := 100 ]} : gmap string Z) !! "gold" = Some 100
  /\ 30 <= 100
  /\ exists (o' : OrchestratorRef) (s' : Store),
      call_ref env1 "gold" 30 None (init_ref 0) two_pools
      = Some (o', s', inr (committed_response env1 None 70))
      /\ dicts s' !! 0%nat = Some (<["gold" := 70]> {[ "gold" := 100 ]})
      /\ dicts s' !! 1%nat = Some {[ "gold" := 50 ]}.
Proof.
  split; [reflexivity |]. split; [reflexivity |]. split; [lia |].
  destruct (constructor_shares_the_pool env1 "gold" 30 None two_pools 0
              {[ "gold" := 100 ]} 100) as (o' & s' & Hc & Hd & _ & Hother);
    [reflexivity | reflexivity | lia |].
  exists o', s'. split; [exact Hc |]. split; [exact Hd |].
  rewrite Hother by lia. reflexivity.
Defined.
